(** * Telemetry settings of the collector: level resolution and flag defaults

    A shallow embedding of [internal/collector/telemetry/telemetry.go]:
    the [Level] constants of the package's const block, the command-line
    flags registered by [Flags], the accessors over the package-level flag
    pointers and the level resolver [GetLevel].

    Go strings are byte sequences; they are modelled by [string], whose
    characters ([ascii]) are exactly the 256 byte values. *)

From Stdlib Require Import ZArith Ascii String List Bool Lia.
From stdpp Require Import base gmap strings.

Local Open Scope string_scope.

(** ** Bytes and strings *)

Module GoString.

(** Characters that cannot be written inside a string literal. *)
Definition dquote : ascii := "034"%char.
Definition backslash : ascii := "092"%char.
Definition tab : ascii := "009"%char.

Definition byteVal (c : ascii) : nat := nat_of_ascii c.

(** [c < utf8.RuneSelf]: the byte is a whole (ASCII) character. *)
Definition isASCIIByte (c : ascii) : bool := Nat.ltb (byteVal c) 128.

(** ['A' <= c && c <= 'Z'] *)
Definition isUpperByte (c : ascii) : bool :=
  Nat.leb 65 (byteVal c) && Nat.leb (byteVal c) 90.

(** [c += 'a' - 'A'] on an upper-case byte, other bytes unchanged. *)
Definition lowerByte (c : ascii) : ascii :=
  if isUpperByte c then ascii_of_nat (byteVal c + 32) else c.

Fixpoint allBytes (p : ascii -> bool) (s : string) : bool :=
  match s with
  | EmptyString => true
  | String c s' => p c && allBytes p s'
  end.

Fixpoint anyByte (p : ascii -> bool) (s : string) : bool :=
  match s with
  | EmptyString => false
  | String c s' => p c || anyByte p s'
  end.

Fixpoint mapBytes (f : ascii -> ascii) (s : string) : string :=
  match s with
  | EmptyString => EmptyString
  | String c s' => String (f c) (mapBytes f s')
  end.

Fixpoint concatMap (f : ascii -> string) (s : string) : string :=
  match s with
  | EmptyString => EmptyString
  | String c s' => f c +:+ concatMap f s'
  end.

(** [strings.Contains(s, substr)] *)
Fixpoint Contains (s substr : string) : bool :=
  String.prefix substr s ||
  match s with
  | EmptyString => false
  | String _ s' => Contains s' substr
  end.

(** The lower-casing of an ASCII string: every byte through [lowerByte]. *)
Definition asciiLower (s : string) : string := mapBytes lowerByte s.

(** [s] is a case variant of the lower-case word [k]: the two are equal
    once the upper-case ASCII letters of [s] are folded. *)
Definition CaseVariantOf (k s : string) : Prop := asciiLower s = k.

End GoString.
Import GoString.

(** ** The parts of Go's runtime library that depend on Unicode's tables

    [strings.ToLower] and [strconv.Quote] (the [%q] verb) are computed here
    for strings of ASCII bytes.  On a string with a byte from [0x80] up they
    decode UTF-8 and consult Unicode's case and printability tables, and the
    escape of [0x7f] differs between Go releases; those results are taken
    from this record, about which nothing is assumed. *)
Record Unicode : Type := {
  (** [strings.Map(unicode.ToLower, s)] for [s] with a non-ASCII byte *)
  MapToLower : string -> string;
  (** [strconv.Quote(s)] for [s] with a byte from [0x7f] up *)
  QuoteWide : string -> string
}.

Module strings.
Section WithUnicode.
Variable U : Unicode.

(** [strings.ToLower]: an ASCII string without upper-case letters is
    returned as it is, an ASCII string has its upper-case letters
    moved by ['a' - 'A'], any other string goes through [unicode.ToLower]. *)
Definition ToLower (s : string) : string :=
  let isASCII := allBytes isASCIIByte s in
  let hasUpper := anyByte isUpperByte s in
  if isASCII then
    if negb hasUpper then s else mapBytes lowerByte s
  else MapToLower U s.
End WithUnicode.
End strings.

Module strconv.
Definition lowerhex : string := "0123456789abcdef".

Definition hexDigit (n : nat) : ascii :=
  match String.get n lowerhex with
  | Some c => c
  | None => "0"%char
  end.

(** [IsPrint] on a byte below [0x80] *)
Definition isPrintASCII (c : ascii) : bool :=
  Nat.leb 32 (byteVal c) && Nat.leb (byteVal c) 126.

(** [appendEscapedRune] with the double quote as the quote character, on a
    byte below [0x7f]. *)
Definition escapeByte (c : ascii) : string :=
  if Ascii.eqb c dquote || Ascii.eqb c backslash then
    String backslash (String c EmptyString)
  else if isPrintASCII c then String c EmptyString
  else
    match byteVal c with
    | 7 => String backslash "a"
    | 8 => String backslash "b"
    | 12 => String backslash "f"
    | 10 => String backslash "n"
    | 13 => String backslash "r"
    | 9 => String backslash "t"
    | 11 => String backslash "v"
    | n =>
        String backslash
          (String "x" (String (hexDigit (n / 16)) (String (hexDigit (n mod 16)) EmptyString)))
    end.

Section WithUnicode.
Variable U : Unicode.

(** [strconv.Quote]: a double-quoted Go string literal. *)
Definition Quote (s : string) : string :=
  if allBytes (fun c => Nat.ltb (byteVal c) 127) s then
    String dquote (concatMap escapeByte s +:+ String dquote EmptyString)
  else QuoteWide U s.
End WithUnicode.
End strconv.

(** ** Memory, package variables and panics *)

Module Go.

Definition loc : Type := nat.

(** A pointer is [nil] or the address of a variable. *)
Definition ptr : Type := option loc.

(** The package-level variables of package telemetry. *)
Record Vars : Type := {
  metricsLevelPtr : ptr;
  metricsAddrPtr : ptr;
  metricsPrefixPtr : ptr;
  useLegacyMetricsPtr : ptr;
  useNewMetricsPtr : ptr;
  addInstanceIDPtr : ptr
}.

(** The string and bool variables allocated so far, by address, and the
    package variables. *)
Record State : Type := {
  strCell : loc -> string;
  boolCell : loc -> bool;
  nextLoc : loc;
  vars : Vars
}.

(** What a call does: it returns a value in a new state, or panics. *)
Inductive Res (A : Type) : Type :=
| Ok (a : A) (st : State)
| Panic (msg : string).
Arguments Ok {A} a st.
Arguments Panic {A} msg.

Definition M (A : Type) : Type := State -> Res A.

Definition ret {A} (a : A) : M A := fun st => Ok a st.

Definition bind {A B} (c : M A) (k : A -> M B) : M B :=
  fun st =>
    match c st with
    | Ok a st' => k a st'
    | Panic msg => Panic msg
    end.

Definition panic {A} (msg : string) : M A := fun _ => Panic msg.

Definition nilDereference : string :=
  "runtime error: invalid memory address or nil pointer dereference".

(** Reading a package variable. *)
Definition readVar {A} (f : Vars -> A) : M A := fun st => Ok (f (vars st)) st.

Definition updVars (f : Vars -> Vars) (st : State) : State :=
  {| strCell := strCell st; boolCell := boolCell st;
     nextLoc := nextLoc st; vars := f (vars st) |}.

(** Assigning the package variables. *)
Definition writeVars (f : Vars -> Vars) : M unit :=
  fun st => Ok tt (updVars f st).

(** [*p] for [p *string] *)
Definition derefString (p : ptr) : M string :=
  fun st =>
    match p with
    | Some l => Ok (strCell st l) st
    | None => Panic nilDereference
    end.

(** [*p] for [p *bool] *)
Definition derefBool (p : ptr) : M bool :=
  fun st =>
    match p with
    | Some l => Ok (boolCell st l) st
    | None => Panic nilDereference
    end.

(** The state with one more string variable, at the next free address. *)
Definition allocString (val : string) (st : State) : State :=
  {| strCell := fun l => if Nat.eqb l (nextLoc st) then val else strCell st l;
     boolCell := boolCell st;
     nextLoc := S (nextLoc st);
     vars := vars st |}.

(** The state with one more bool variable, at the next free address. *)
Definition allocBool (val : bool) (st : State) : State :=
  {| strCell := strCell st;
     boolCell := fun l => if Nat.eqb l (nextLoc st) then val else boolCell st l;
     nextLoc := S (nextLoc st);
     vars := vars st |}.

(** [p := new(string); *p = val] *)
Definition newString (val : string) : M loc :=
  fun st => Ok (nextLoc st) (allocString val st).

(** [p := new(bool); *p = val] *)
Definition newBool (val : bool) : M loc :=
  fun st => Ok (nextLoc st) (allocBool val st).

End Go.
Import Go.

Notation "'let*' x ':=' c 'in' k" := (bind c (fun x => k))
  (at level 10, x pattern, c at level 100, k at level 200).

(** ** Package flag: registering a flag *)

Module flag.

(** The value behind a flag: a pointer to the variable that holds it. *)
Inductive Value : Type :=
| stringValue (p : loc)
| boolValue (p : loc).

Record Flag : Type := {
  Name : string;
  Usage : string;
  FlagValue : Value;
  DefValue : string
}.

(** A [FlagSet]: its name and the flags defined in it, by flag name. *)
Record FlagSet : Type := {
  name : string;
  formal : gmap string Flag
}.

Definition NewFlagSet (n : string) : FlagSet := {| name := n; formal := ∅ |}.

(** [strconv.FormatBool] *)
Definition FormatBool (b : bool) : string := if b then "true" else "false".

(** [FlagSet.Var]: defining a name twice panics, with the message the
    package prints; otherwise the flag is entered under its name. *)
Definition Var (f : FlagSet) (value : Value) (defValue : string)
    (flagName usage : string) : M FlagSet :=
  let flag := {| Name := flagName; Usage := usage; FlagValue := value;
                 DefValue := defValue |} in
  match formal f !! flagName with
  | Some _ =>
      let msg :=
        if String.eqb (name f) "" then "flag redefined: " +:+ flagName
        else name f +:+ " flag redefined: " +:+ flagName in
      panic msg
  | None => ret {| name := name f; formal := <[flagName := flag]> (formal f) |}
  end.

(** [FlagSet.String]: a new string variable holding the default, defined
    as a flag; the address of the variable is returned. *)
Definition String (f : FlagSet) (flagName value usage : string) : M (loc * FlagSet) :=
  let* p := newString value in
  let* f' := Var f (stringValue p) value flagName usage in
  ret (p, f').

(** [FlagSet.Bool] *)
Definition Bool (f : FlagSet) (flagName : string) (value : bool) (usage : string)
    : M (loc * FlagSet) :=
  let* p := newBool value in
  let* f' := Var f (boolValue p) (FormatBool value) flagName usage in
  ret (p, f').

End flag.

(** ** Package telemetry *)

Module telemetry.

(** [type Level int8] *)
Definition Level : Type := Z.

Definition int8 (z : Z) : Z := ((z + 128) mod 256 - 128)%Z.

(** The zero value of [Level], what [var level Level] holds. *)
Definition zeroLevel : Level := 0%Z.

(** The package's one const block.  Within a constant declaration [iota]
    is the index of the ConstSpec it occurs in, counted from zero over
    every ConstSpec of the block; a ConstSpec with no expression repeats
    the previous one. *)
Inductive ConstSpec : Type :=
| StringConst (name value : string)
| LevelIotaMinusOne (name : string).

Definition constBlock : list ConstSpec :=
  [ StringConst "metricsAddrCfg" "metrics-addr";
    StringConst "metricsLevelCfg" "metrics-level";
    StringConst "metricsPrefixCfg" "metrics-prefix";
    LevelIotaMinusOne "None";
    LevelIotaMinusOne "Basic";
    LevelIotaMinusOne "Normal";
    LevelIotaMinusOne "Detailed" ].

Definition specName (c : ConstSpec) : string :=
  match c with
  | StringConst n _ => n
  | LevelIotaMinusOne n => n
  end.

(** The value of [iota] in the ConstSpec that declares [name]. *)
Fixpoint iotaOf (name : string) (block : list ConstSpec) (index : Z) : option Z :=
  match block with
  | [] => None
  | c :: rest =>
      if String.eqb (specName c) name then Some index
      else iotaOf name rest (index + 1)%Z
  end.

Definition stringConst (name : string) : string :=
  match List.find (fun c => String.eqb (specName c) name) constBlock with
  | Some (StringConst _ v) => v
  | _ => ""
  end.

(** [Level = iota - 1] *)
Definition levelConst (name : string) : Level :=
  match iotaOf name constBlock 0%Z with
  | Some i => int8 (i - 1)
  | None => zeroLevel
  end.

Definition metricsAddrCfg : string := stringConst "metricsAddrCfg".
Definition metricsLevelCfg : string := stringConst "metricsLevelCfg".
Definition metricsPrefixCfg : string := stringConst "metricsPrefixCfg".

(** Go's [None]; the name [None] is [option]'s here. *)
Definition None_ : Level := levelConst "None".
Definition Basic : Level := levelConst "Basic".
Definition Normal : Level := levelConst "Normal".
Definition Detailed : Level := levelConst "Detailed".

(** An [error] is [nil] or carries its message. *)
Definition error : Type := option string.

(** [fmt.Errorf(prefix + "%q", s)] *)
Definition Errorf_q (U : Unicode) (prefix s : string) : error :=
  Some (prefix +:+ strconv.Quote U s).

Definition setMetricsLevelPtr (p : ptr) (v : Vars) : Vars :=
  {| metricsLevelPtr := p; metricsAddrPtr := metricsAddrPtr v;
     metricsPrefixPtr := metricsPrefixPtr v;
     useLegacyMetricsPtr := useLegacyMetricsPtr v;
     useNewMetricsPtr := useNewMetricsPtr v;
     addInstanceIDPtr := addInstanceIDPtr v |}.

Definition setMetricsAddrPtr (p : ptr) (v : Vars) : Vars :=
  {| metricsLevelPtr := metricsLevelPtr v; metricsAddrPtr := p;
     metricsPrefixPtr := metricsPrefixPtr v;
     useLegacyMetricsPtr := useLegacyMetricsPtr v;
     useNewMetricsPtr := useNewMetricsPtr v;
     addInstanceIDPtr := addInstanceIDPtr v |}.

Definition setMetricsPrefixPtr (p : ptr) (v : Vars) : Vars :=
  {| metricsLevelPtr := metricsLevelPtr v; metricsAddrPtr := metricsAddrPtr v;
     metricsPrefixPtr := p;
     useLegacyMetricsPtr := useLegacyMetricsPtr v;
     useNewMetricsPtr := useNewMetricsPtr v;
     addInstanceIDPtr := addInstanceIDPtr v |}.

Definition setUseLegacyMetricsPtr (p : ptr) (v : Vars) : Vars :=
  {| metricsLevelPtr := metricsLevelPtr v; metricsAddrPtr := metricsAddrPtr v;
     metricsPrefixPtr := metricsPrefixPtr v;
     useLegacyMetricsPtr := p;
     useNewMetricsPtr := useNewMetricsPtr v;
     addInstanceIDPtr := addInstanceIDPtr v |}.

Definition setUseNewMetricsPtr (p : ptr) (v : Vars) : Vars :=
  {| metricsLevelPtr := metricsLevelPtr v; metricsAddrPtr := metricsAddrPtr v;
     metricsPrefixPtr := metricsPrefixPtr v;
     useLegacyMetricsPtr := useLegacyMetricsPtr v;
     useNewMetricsPtr := p;
     addInstanceIDPtr := addInstanceIDPtr v |}.

Definition setAddInstanceIDPtr (p : ptr) (v : Vars) : Vars :=
  {| metricsLevelPtr := metricsLevelPtr v; metricsAddrPtr := metricsAddrPtr v;
     metricsPrefixPtr := metricsPrefixPtr v;
     useLegacyMetricsPtr := useLegacyMetricsPtr v;
     useNewMetricsPtr := useNewMetricsPtr v;
     addInstanceIDPtr := p |}.

Section WithBuild.
(** [version.IsDevBuild()], fixed for the life of the process. *)
Variable IsDevBuild : bool.

(** [GetMetricsAddrDefault] *)
Definition GetMetricsAddrDefault : string :=
  if IsDevBuild then "localhost:8888" else ":8888".

(** [Flags] on the flag set its argument points to. *)
Definition FlagsOn (flags : flag.FlagSet) : M flag.FlagSet :=
  let* (p, flags) :=
    flag.String flags metricsLevelCfg "BASIC"
      "Output level of telemetry metrics (NONE, BASIC, NORMAL, DETAILED)" in
  let* _ := writeVars (setMetricsLevelPtr (Some p)) in
  let* (p, flags) :=
    flag.String flags metricsAddrCfg GetMetricsAddrDefault
      "[address]:port for exposing collector telemetry." in
  let* _ := writeVars (setMetricsAddrPtr (Some p)) in
  let* (p, flags) :=
    flag.String flags metricsPrefixCfg "otelcol"
      "Prefix to the metrics generated by the collector." in
  let* _ := writeVars (setMetricsPrefixPtr (Some p)) in
  let* (p, flags) :=
    flag.Bool flags "legacy-metrics" false
      "Flag to control usage of legacy metrics" in
  let* _ := writeVars (setUseLegacyMetricsPtr (Some p)) in
  let* (p, flags) :=
    flag.Bool flags "new-metrics" true
      "Flag to control usage of new metrics" in
  let* _ := writeVars (setUseNewMetricsPtr (Some p)) in
  let* (p, flags) :=
    flag.Bool flags "add-instance-id" true
      "Flag to control the addition of 'service.instance.id' to the collector metrics." in
  let* _ := writeVars (setAddInstanceIDPtr (Some p)) in
  ret flags.

(** [Flags(flags *flag.FlagSet)]: a nil flag set panics at its first use. *)
Definition Flags (flags : option flag.FlagSet) : M flag.FlagSet :=
  match flags with
  | Some f => FlagsOn f
  | None => panic nilDereference
  end.
End WithBuild.

Definition GetAddInstanceID : M bool :=
  let* p := readVar addInstanceIDPtr in derefBool p.

Section WithUnicode.
Variable U : Unicode.

(** The [switch] of [GetLevel] on the lower-cased string, from
    [level] still at its zero value. *)
Definition levelSwitch (str : string) : Level * error :=
  let level : Level := zeroLevel in
  if String.eqb str "none" then (None_, None)
  else if String.eqb str "" || String.eqb str "basic" then (Basic, None)
  else if String.eqb str "normal" then (Normal, None)
  else if String.eqb str "detailed" then (Detailed, None)
  else (level, Errorf_q U "unknown metrics level " str).

(** [GetLevel] *)
Definition GetLevel : M (Level * error) :=
  let* p := readVar metricsLevelPtr in
  let* str :=
    match p with
    | Some _ => let* s := derefString p in ret (strings.ToLower U s)
    | None => ret ""
    end in
  ret (levelSwitch str).
End WithUnicode.

Definition GetMetricsAddr : M string :=
  let* p := readVar metricsAddrPtr in derefString p.

Definition GetMetricsPrefix : M string :=
  let* p := readVar metricsPrefixPtr in derefString p.

Definition UseLegacyMetrics : M bool :=
  let* p := readVar useLegacyMetricsPtr in derefBool p.

Definition UseNewMetrics : M bool :=
  let* p := readVar useNewMetricsPtr in derefBool p.

(** The state of a process before anything ran: no variable allocated,
    every package variable at its zero value [nil]. *)
Definition initState : State :=
  {| strCell := fun _ => ""; boolCell := fun _ => false; nextLoc := 0;
     vars := {| metricsLevelPtr := None; metricsAddrPtr := None;
                metricsPrefixPtr := None; useLegacyMetricsPtr := None;
                useNewMetricsPtr := None; addInstanceIDPtr := None |} |}.

(** A state whose level flag holds [s]: what parsing [--metrics-level=s]
    leaves in the variable [metricsLevelPtr] points to. *)
Definition withLevel (s : string) (st : State) : State :=
  updVars (setMetricsLevelPtr (Some (nextLoc st))) (allocString s st).

End telemetry.
Import telemetry.

(** Unicode tables that change nothing: enough to run the model, whose
    results on ASCII strings do not depend on them. *)
Definition plainUnicode : Unicode := {| MapToLower := fun s => s; QuoteWide := fun s => s |}.


(** ** What the statements below speak about *)

(** The raw level string of a state: what [metricsLevelPtr] points to, if
    it points to anything. *)
Definition levelString (st : State) : option string :=
  match metricsLevelPtr (vars st) with
  | Some l => Some (strCell st l)
  | None => None
  end.

(** The value a call returned, the state left aside. *)
Definition returned {A} (r : Res A) : option A :=
  match r with
  | Ok a _ => Some a
  | Panic _ => None
  end.

(** The resolver returned a level and no error. *)
Definition succeeded (r : Res (Level * error)) : Prop :=
  exists l st, r = Ok (l, None) st.

(** The resolver returned an error. *)
Definition failed (r : Res (Level * error)) : Prop :=
  exists l msg st, r = Ok (l, Some msg) st.

(** The accepted raw values, as the specification lists them. *)
Definition accepted : list string := ["none"; ""; "basic"; "normal"; "detailed"].

(** The mapping of the specification's contract, keyword by keyword. *)
Definition specMapping (k : string) : option Level :=
  if String.eqb k "" then Some Basic
  else if String.eqb k "basic" then Some Basic
  else if String.eqb k "none" then Some None_
  else if String.eqb k "normal" then Some Normal
  else if String.eqb k "detailed" then Some Detailed
  else None.

(** ASCII white space, as [unicode.IsSpace] has it below [0x80]. *)
Definition isSpaceByte (c : ascii) : bool :=
  match byteVal c with
  | 9 | 10 | 11 | 12 | 13 | 32 => true
  | _ => false
  end.

(** ['0' <= c && c <= '9'] *)
Definition isDigitByte (c : ascii) : bool :=
  Nat.leb 48 (byteVal c) && Nat.leb (byteVal c) 57.

Definition firstByte (s : string) : option ascii :=
  match s with
  | EmptyString => None
  | String c _ => Some c
  end.

Fixpoint lastByte (s : string) : option ascii :=
  match s with
  | EmptyString => None
  | String c EmptyString => Some c
  | String _ s' => lastByte s'
  end.

(** A byte [%q] writes as it is: printable ASCII other than the double
    quote and the backslash. *)
Definition isPlainByte (c : ascii) : bool :=
  strconv.isPrintASCII c && negb (Ascii.eqb c dquote) && negb (Ascii.eqb c backslash).

(** The string [GetLevel] switches on: the lower-cased level string, or
    the empty string when the pointer is nil. *)
Definition loweredLevel (U : Unicode) (st : State) : string :=
  match levelString st with
  | Some s => strings.ToLower U s
  | None => ""
  end.

(** Two calls of the resolver, one after the other. *)
Definition GetLevelTwice (U : Unicode) : M ((Level * error) * (Level * error)) :=
  let* r1 := GetLevel U in
  let* r2 := GetLevel U in
  ret (r1, r2).

Definition tabString : string := String tab EmptyString.

(** The claim on the error message, as the specification words it, at one
    level string: when the lower-cased string is not accepted, an error
    comes back with the zero level, and its message contains that string. *)
Definition messageContainsInput (U : Unicode) (st : State) (s : string) : Prop :=
  levelString st = Some s ->
  ~ In (strings.ToLower U s) accepted ->
  exists msg,
    GetLevel U st = Ok (zeroLevel, Some msg) st /\
    Contains msg (strings.ToLower U s) = true.

(** ** Flag sets and overrides: what the further statements speak about *)

(** The six names [Flags] registers, in the order it registers them. *)
Definition flagNames : list string :=
  [metricsLevelCfg; metricsAddrCfg; metricsPrefixCfg;
   "legacy-metrics"; "new-metrics"; "add-instance-id"].

(** The flag set [fs] defines [n], as a flag of that name whose value is
    [v] and whose default is printed as [def]. *)
Definition registered (fs : flag.FlagSet) (n : string) (v : flag.Value)
    (def : string) : Prop :=
  exists fl, flag.formal fs !! n = Some fl /\
    flag.Name fl = n /\ flag.FlagValue fl = v /\ flag.DefValue fl = def.

(** The state after [*p = val] for [p *string] at address [l]. *)
Definition storeString (l : loc) (val : string) (st : State) : State :=
  {| strCell := fun l' => if Nat.eqb l' l then val else strCell st l';
     boolCell := boolCell st;
     nextLoc := nextLoc st;
     vars := vars st |}.

(** The [Set] method of package flag's [stringValue], what parsing a
    command line calls on a string flag: it stores [val] in the variable
    behind the flag and returns a nil error. *)
Definition stringValue_Set (p : loc) (val : string) : M error :=
  fun st => Ok None (storeString p val st).

(** ** Reading a quoted string back *)

(** A byte [strconv.Quote] escapes by itself: one below [0x7f]. *)
Definition isBelowDel (c : ascii) : bool := Nat.ltb (byteVal c) 127.

(** The value of a digit of [lowerhex]. *)
Definition hexValue (c : ascii) : option nat :=
  if Nat.leb 48 (byteVal c) && Nat.leb (byteVal c) 57 then Some (byteVal c - 48)
  else if Nat.leb 97 (byteVal c) && Nat.leb (byteVal c) 102 then Some (byteVal c - 87)
  else None.

(** The byte that the escape at the front of the body of a quoted string
    stands for, and what follows it; nothing at a bare double quote, which
    closes the string, or at an escape [strconv.Quote] does not write. *)
Definition unescapeFirst (s : string) : option (ascii * string) :=
  match s with
  | EmptyString => None
  | String c r =>
      if Ascii.eqb c dquote then None
      else if negb (Ascii.eqb c backslash) then Some (c, r)
      else
        match r with
        | EmptyString => None
        | String e r' =>
            if Ascii.eqb e dquote || Ascii.eqb e backslash then Some (e, r')
            else if Ascii.eqb e "a" then Some (ascii_of_nat 7, r')
            else if Ascii.eqb e "b" then Some (ascii_of_nat 8, r')
            else if Ascii.eqb e "f" then Some (ascii_of_nat 12, r')
            else if Ascii.eqb e "n" then Some (ascii_of_nat 10, r')
            else if Ascii.eqb e "r" then Some (ascii_of_nat 13, r')
            else if Ascii.eqb e "t" then Some (ascii_of_nat 9, r')
            else if Ascii.eqb e "v" then Some (ascii_of_nat 11, r')
            else if Ascii.eqb e "x" then
              match r' with
              | String h (String l r'') =>
                  match hexValue h, hexValue l with
                  | Some a, Some b => Some (ascii_of_nat (16 * a + b), r'')
                  | _, _ => None
                  end
              | _ => None
              end
            else None
        end
  end.

(** ** Bytes and strings: lemmas *)

Ltac each_byte c := destruct c as [[] [] [] [] [] [] [] []].

Lemma lowerByte_isASCII (c : ascii) : isASCIIByte (lowerByte c) = isASCIIByte c.
Proof. each_byte c; reflexivity. Qed.

Lemma lowerByte_fixes_lower (c : ascii) : isUpperByte c = false -> lowerByte c = c.
Proof. unfold lowerByte. intros ->. reflexivity. Qed.

Lemma asciiLower_isASCII (s : string) :
  allBytes isASCIIByte (asciiLower s) = allBytes isASCIIByte s.
Proof.
  unfold asciiLower.
  induction s as [|c s IH]; simpl; [reflexivity|].
  rewrite lowerByte_isASCII, IH. reflexivity.
Qed.

Lemma asciiLower_without_upper (s : string) :
  anyByte isUpperByte s = false -> asciiLower s = s.
Proof.
  unfold asciiLower.
  induction s as [|c s IH]; simpl; [reflexivity|].
  intros H. apply orb_false_iff in H as [Hc Hs].
  rewrite (lowerByte_fixes_lower c Hc), (IH Hs). reflexivity.
Qed.

(** On ASCII strings [strings.ToLower] folds every byte, whatever the
    Unicode tables are. *)
Lemma ToLower_ascii (U : Unicode) (s : string) :
  allBytes isASCIIByte s = true -> strings.ToLower U s = asciiLower s.
Proof.
  intros H. unfold strings.ToLower. rewrite H.
  destruct (anyByte isUpperByte s) eqn:E; simpl; [reflexivity|].
  symmetry. apply asciiLower_without_upper. exact E.
Qed.

Lemma ToLower_case_variant (U : Unicode) (k s : string) :
  allBytes isASCIIByte k = true -> CaseVariantOf k s -> strings.ToLower U s = k.
Proof.
  unfold CaseVariantOf. intros Hk Hs.
  rewrite ToLower_ascii; [exact Hs|].
  rewrite <- asciiLower_isASCII, Hs. exact Hk.
Qed.

Lemma prefix_append (sub b : string) : String.prefix sub (sub +:+ b) = true.
Proof.
  induction sub as [|c sub IH]; simpl.
  - destruct b; reflexivity.
  - destruct (ascii_dec c c) as [_|n]; [exact IH | contradiction].
Qed.

Lemma Contains_of_prefix (s sub : string) :
  String.prefix sub s = true -> Contains s sub = true.
Proof. intros H. destruct s; cbn [Contains]; rewrite H; reflexivity. Qed.

Lemma append_empty_l (s : string) : "" +:+ s = s.
Proof. reflexivity. Qed.

Lemma append_String_l (c : ascii) (a s : string) : String c a +:+ s = String c (a +:+ s).
Proof. reflexivity. Qed.

Lemma Contains_append (a sub b : string) : Contains (a +:+ (sub +:+ b)) sub = true.
Proof.
  induction a as [|c a IH].
  - rewrite append_empty_l. apply Contains_of_prefix. apply prefix_append.
  - rewrite append_String_l. cbn [Contains]. rewrite IH. apply orb_true_r.
Qed.

Lemma Contains_skip (a s sub : string) :
  Contains s sub = true -> Contains (a +:+ s) sub = true.
Proof.
  intros H. induction a as [|c a IH].
  - exact H.
  - rewrite append_String_l. cbn [Contains]. rewrite IH. apply orb_true_r.
Qed.

Lemma isPlainByte_escape (c : ascii) :
  isPlainByte c = true -> strconv.escapeByte c = String c EmptyString.
Proof. each_byte c; vm_compute; congruence. Qed.

Lemma isPlainByte_below_del (c : ascii) :
  isPlainByte c = true -> Nat.ltb (byteVal c) 127 = true.
Proof. each_byte c; vm_compute; congruence. Qed.

(** A string of plain bytes is quoted by putting it between double quotes. *)
Lemma Quote_plain (U : Unicode) (s : string) :
  allBytes isPlainByte s = true ->
  strconv.Quote U s = String dquote (s +:+ String dquote EmptyString).
Proof.
  intros H. unfold strconv.Quote.
  assert (Hlt : allBytes (fun c => Nat.ltb (byteVal c) 127) s = true).
  { induction s as [|c s IH]; simpl in *; [reflexivity|].
    apply andb_true_iff in H as [Hc Hs].
    rewrite (isPlainByte_below_del c Hc). exact (IH Hs). }
  rewrite Hlt. do 2 f_equal.
  induction s as [|c s IH]; cbn [concatMap allBytes] in *; [reflexivity|].
  apply andb_true_iff in H as [Hc Hs]. apply andb_true_iff in Hlt as [_ Hlt].
  rewrite (isPlainByte_escape c Hc), (IH Hs Hlt). reflexivity.
Qed.

(** ** The resolver *)

Lemma GetLevel_run (U : Unicode) (st : State) :
  GetLevel U st = Ok (levelSwitch U (loweredLevel U st)) st.
Proof.
  unfold GetLevel, loweredLevel, levelString, bind, readVar, derefString, ret.
  destruct (metricsLevelPtr (vars st)); reflexivity.
Qed.

Lemma GetLevel_of_string (U : Unicode) (st : State) (s : string) :
  levelString st = Some s ->
  GetLevel U st = Ok (levelSwitch U (strings.ToLower U s)) st.
Proof. intros H. rewrite GetLevel_run. unfold loweredLevel. rewrite H. reflexivity. Qed.

Lemma accepted_cases (x : string) :
  In x accepted ->
  x = "none" \/ x = "" \/ x = "basic" \/ x = "normal" \/ x = "detailed".
Proof. simpl. intuition auto. Qed.

Ltac accepted_case H :=
  apply accepted_cases in H; destruct H as [->|[->|[->|[->| ->]]]].

Lemma specMapping_switch (U : Unicode) (k : string) (l : Level) :
  specMapping k = Some l -> In k accepted /\ levelSwitch U k = (l, None).
Proof.
  unfold specMapping. intros H.
  destruct (String.eqb_spec k "") as [->|_];
    [injection H as <-; split; [simpl; tauto | reflexivity]|].
  destruct (String.eqb_spec k "basic") as [->|_];
    [injection H as <-; split; [simpl; tauto | reflexivity]|].
  destruct (String.eqb_spec k "none") as [->|_];
    [injection H as <-; split; [simpl; tauto | reflexivity]|].
  destruct (String.eqb_spec k "normal") as [->|_];
    [injection H as <-; split; [simpl; tauto | reflexivity]|].
  destruct (String.eqb_spec k "detailed") as [->|_];
    [injection H as <-; split; [simpl; tauto | reflexivity]|].
  discriminate H.
Qed.

Lemma levelSwitch_accepted (U : Unicode) (x : string) :
  In x accepted -> exists l, levelSwitch U x = (l, None).
Proof. intros H. accepted_case H; eexists; reflexivity. Qed.

Lemma levelSwitch_rejected (U : Unicode) (x : string) :
  ~ In x accepted ->
  levelSwitch U x = (zeroLevel, Errorf_q U "unknown metrics level " x).
Proof.
  intros H. unfold levelSwitch.
  destruct (String.eqb_spec x "none") as [->|_]; [exfalso; apply H; simpl; tauto|].
  destruct (String.eqb_spec x "") as [->|_]; [exfalso; apply H; simpl; tauto|].
  destruct (String.eqb_spec x "basic") as [->|_]; [exfalso; apply H; simpl; tauto|].
  destruct (String.eqb_spec x "normal") as [->|_]; [exfalso; apply H; simpl; tauto|].
  destruct (String.eqb_spec x "detailed") as [->|_]; [exfalso; apply H; simpl; tauto|].
  reflexivity.
Qed.

Lemma accepted_dec (x : string) : {In x accepted} + {~ In x accepted}.
Proof. apply in_dec, string_dec. Defined.

Lemma succeeded_iff (U : Unicode) (st : State) :
  succeeded (GetLevel U st) <-> In (loweredLevel U st) accepted.
Proof.
  rewrite GetLevel_run. split.
  - intros (l & st' & E). destruct (accepted_dec (loweredLevel U st)) as [Hin|Hout]; [exact Hin|].
    rewrite (levelSwitch_rejected U _ Hout) in E. discriminate.
  - intros Hin. destruct (levelSwitch_accepted U _ Hin) as [l E].
    exists l, st. rewrite E. reflexivity.
Qed.

Lemma failed_iff (U : Unicode) (st : State) :
  failed (GetLevel U st) <-> ~ In (loweredLevel U st) accepted.
Proof.
  rewrite GetLevel_run. split.
  - intros (l & msg & st' & E) Hin.
    destruct (levelSwitch_accepted U _ Hin) as [l' E']. rewrite E' in E. discriminate.
  - intros Hout. rewrite (levelSwitch_rejected U _ Hout).
    eexists _, _, _. reflexivity.
Qed.

Lemma accepted_isASCII (k : string) : In k accepted -> allBytes isASCIIByte k = true.
Proof. intros H. accepted_case H; reflexivity. Qed.

(** ** Level resolution: the mapping and its errors *)

(** C1: for every level string, [GetLevel] switches on the lower-cased
    string; a lower-cased string that is the empty string, "basic", "none",
    "normal" or "detailed" resolves to Basic, Basic, None, Normal or
    Detailed with no error; and so does every case variant of one of these
    keywords, all variants of a keyword getting the same level. *)
Theorem C1_GetLevel_mapping (U : Unicode) (st : State) (s : string) :
  levelString st = Some s ->
  GetLevel U st = Ok (levelSwitch U (strings.ToLower U s)) st /\
  (forall k l, specMapping k = Some l -> strings.ToLower U s = k ->
     GetLevel U st = Ok (l, None) st) /\
  (forall k l, specMapping k = Some l -> CaseVariantOf k s ->
     GetLevel U st = Ok (l, None) st).
Proof.
  intros H. pose proof (GetLevel_of_string U st s H) as Hrun.
  split; [exact Hrun|]. split.
  - intros k l Hk Hlow. rewrite Hrun, Hlow.
    destruct (specMapping_switch U k l Hk) as [_ ->]. reflexivity.
  - intros k l Hk Hvar. destruct (specMapping_switch U k l Hk) as [Hin Hsw].
    rewrite Hrun, (ToLower_case_variant U k s (accepted_isASCII k Hin) Hvar), Hsw.
    reflexivity.
Qed.

(** The three spellings the specification names. *)
Example GetLevel_basic_spellings (U : Unicode) :
  returned (GetLevel U (withLevel "BASIC" initState)) = Some (Basic, None) /\
  returned (GetLevel U (withLevel "Basic" initState)) = Some (Basic, None) /\
  returned (GetLevel U (withLevel "basic" initState)) = Some (Basic, None).
Proof. repeat split. Qed.

(** "BASIC", a case variant of "basic", resolves to Basic. *)
Lemma C1_GetLevel_mapping_witness :
  levelString (withLevel "BASIC" initState) = Some "BASIC" /\
  GetLevel plainUnicode (withLevel "BASIC" initState)
    = Ok (Basic, None) (withLevel "BASIC" initState).
Proof.
  split; [reflexivity|].
  apply (C1_GetLevel_mapping plainUnicode (withLevel "BASIC" initState) "BASIC"
           eq_refl) with (k := "basic"); reflexivity.
Defined.

(** C2: [GetLevel] returns an error exactly when the lower-cased level
    string is none of "none", the empty string, "basic", "normal" and
    "detailed", and returns a level with no error exactly when it is one of
    them; every case variant of one of the five is accepted. *)
Theorem C2_error_iff_not_accepted (U : Unicode) (st : State) (s : string) :
  levelString st = Some s ->
  (failed (GetLevel U st) <-> ~ In (strings.ToLower U s) accepted) /\
  (succeeded (GetLevel U st) <-> In (strings.ToLower U s) accepted) /\
  (forall k, In k accepted -> CaseVariantOf k s -> succeeded (GetLevel U st)).
Proof.
  intros H.
  assert (Hlow : loweredLevel U st = strings.ToLower U s)
    by (unfold loweredLevel; rewrite H; reflexivity).
  rewrite failed_iff, succeeded_iff, Hlow. split; [tauto|]. split; [tauto|].
  intros k Hin Hvar. apply succeeded_iff. rewrite Hlow.
  rewrite (ToLower_case_variant U k s (accepted_isASCII k Hin) Hvar). exact Hin.
Qed.

(** "verbose" is rejected, "Detailed" is accepted. *)
Lemma C2_error_iff_not_accepted_witness :
  failed (GetLevel plainUnicode (withLevel "verbose" initState)) /\
  succeeded (GetLevel plainUnicode (withLevel "Detailed" initState)).
Proof.
  split.
  - apply (C2_error_iff_not_accepted plainUnicode (withLevel "verbose" initState)
             "verbose" eq_refl).
    vm_compute. intuition discriminate.
  - apply (C2_error_iff_not_accepted plainUnicode (withLevel "Detailed" initState)
             "Detailed" eq_refl) with (k := "detailed").
    + vm_compute. tauto.
    + reflexivity.
Defined.

(** C4, as the code has it: for every level string whose lower-cased form
    is not accepted, [GetLevel] returns the zero value of [Level] together
    with an error whose message is "unknown metrics level " followed by the
    lower-cased string as [%q] quotes it; when that string is made of
    printable ASCII bytes other than the double quote and the backslash,
    the quoted form is the string between double quotes, so the message
    contains it. *)
Theorem C4_unknown_level_error (U : Unicode) (st : State) (s : string) :
  levelString st = Some s ->
  ~ In (strings.ToLower U s) accepted ->
  GetLevel U st
    = Ok (zeroLevel,
          Some ("unknown metrics level " +:+ strconv.Quote U (strings.ToLower U s))) st /\
  (allBytes isPlainByte (strings.ToLower U s) = true ->
     strconv.Quote U (strings.ToLower U s)
       = String dquote (strings.ToLower U s +:+ String dquote EmptyString) /\
     Contains ("unknown metrics level " +:+ strconv.Quote U (strings.ToLower U s))
       (strings.ToLower U s) = true).
Proof.
  intros H Hout. split.
  - rewrite (GetLevel_of_string U st s H), (levelSwitch_rejected U _ Hout). reflexivity.
  - intros Hplain. rewrite (Quote_plain U _ Hplain). split; [reflexivity|].
    apply Contains_skip.
    change (String dquote (strings.ToLower U s +:+ String dquote EmptyString))
      with (String dquote EmptyString +:+ (strings.ToLower U s +:+ String dquote EmptyString)).
    apply Contains_append.
Qed.

(** "Bogus" is answered by the zero level and a message that contains "bogus". *)
Lemma C4_unknown_level_error_witness :
  exists msg,
    GetLevel plainUnicode (withLevel "Bogus" initState)
      = Ok (zeroLevel, Some msg) (withLevel "Bogus" initState) /\
    Contains msg "bogus" = true.
Proof.
  destruct (C4_unknown_level_error plainUnicode (withLevel "Bogus" initState) "Bogus")
    as [Hrun Hplain].
  - reflexivity.
  - vm_compute. intuition discriminate.
  - eexists. split; [exact Hrun|]. apply Hplain. reflexivity.
Defined.

(** C4, as stated, fails on a level string that is a single tab: it is not
    accepted, and the message holds the two bytes of the escape, a
    backslash and a "t", not the tab; whatever the Unicode tables are. *)
Lemma C4_tab_not_in_message :
  ~ exists U : Unicode, messageContainsInput U (withLevel tabString initState) tabString.
Proof.
  intros [U Hclaim].
  destruct Hclaim as (msg & Hrun & Hin).
  - reflexivity.
  - vm_compute. intuition discriminate.
  - vm_compute in Hrun. injection Hrun as <-. vm_compute in Hin. discriminate Hin.
Qed.

(** ** The level constants *)

(** C3, what the code has: [None] is the fourth ConstSpec of the const
    block, after the three flag names, so [iota] is 3 there and [iota - 1]
    makes None 2 and Basic 3.  The zero value of [Level] is therefore not
    Basic (it is none of the four constants) and None is not below zero. *)
Theorem C3_level_constant_values :
  iotaOf "None" constBlock 0%Z = Some 3%Z /\
  None_ = 2%Z /\ Basic = 3%Z /\ Normal = 4%Z /\ Detailed = 5%Z /\
  zeroLevel <> Basic /\ ~ (None_ < 0)%Z /\
  ~ In zeroLevel [None_; Basic; Normal; Detailed].
Proof.
  repeat split; try reflexivity.
  - discriminate.
  - vm_compute. discriminate.
  - vm_compute. intuition discriminate.
Qed.

(** C6: as numbers the four constants are strictly increasing,
    None < Basic < Normal < Detailed, each within the range of [int8]. *)
Theorem C6_level_order :
  (None_ < Basic)%Z /\ (Basic < Normal)%Z /\ (Normal < Detailed)%Z /\
  Forall (fun l : Level => (-128 <= l <= 127)%Z) [None_; Basic; Normal; Detailed].
Proof.
  repeat split; try reflexivity.
  repeat constructor; vm_compute; discriminate.
Qed.

(** ** The default metrics address *)

(** C5: the default address is "localhost:8888" on a development build
    and ":8888" on any other, for both values of the build-type flag. *)
Theorem C5_metrics_address_default (isDevBuild : bool) :
  GetMetricsAddrDefault true = "localhost:8888" /\
  GetMetricsAddrDefault false = ":8888" /\
  GetMetricsAddrDefault isDevBuild
    = (if isDevBuild then "localhost:8888" else ":8888").
Proof. repeat split. Qed.

(** ** Purity of the resolver *)

(** C8: [GetLevel] always returns, and leaves the state as it found it; a
    second call right after the first returns the same level and the same
    error-or-nil; and two states with the same level string get the same
    result. *)
Theorem C8_GetLevel_deterministic (U : Unicode) (st st2 : State) :
  (exists r, GetLevel U st = Ok r st /\ GetLevelTwice U st = Ok (r, r) st) /\
  (levelString st = levelString st2 ->
   returned (GetLevel U st) = returned (GetLevel U st2)).
Proof.
  split.
  - exists (levelSwitch U (loweredLevel U st)). split; [apply GetLevel_run|].
    unfold GetLevelTwice, bind, ret. rewrite !GetLevel_run. reflexivity.
  - intros H. rewrite !GetLevel_run. unfold loweredLevel. rewrite H. reflexivity.
Qed.

(** Two states that differ in what else they hold, both with the level
    string "normal", get the same result. *)
Lemma C8_GetLevel_deterministic_witness :
  returned (GetLevel plainUnicode (withLevel "normal" initState))
    = returned (GetLevel plainUnicode (withLevel "normal" (withLevel "none" initState))).
Proof.
  apply (C8_GetLevel_deterministic plainUnicode
           (withLevel "normal" initState)
           (withLevel "normal" (withLevel "none" initState))).
  reflexivity.
Defined.

(** C9: with the level pointer nil, as it is before [Flags] ran,
    [GetLevel] does not panic: it returns Basic and no error, and the state
    is untouched. *)
Theorem C9_GetLevel_nil_pointer (U : Unicode) (st : State) :
  metricsLevelPtr (vars st) = None ->
  GetLevel U st = Ok (Basic, None) st.
Proof.
  intros H. rewrite GetLevel_run. unfold loweredLevel, levelString. rewrite H.
  reflexivity.
Qed.

(** The state of a process in which nothing ran yet. *)
Lemma C9_GetLevel_nil_pointer_witness :
  metricsLevelPtr (vars initState) = None /\
  GetLevel plainUnicode initState = Ok (Basic, None) initState.
Proof.
  split; [reflexivity|].
  apply (C9_GetLevel_nil_pointer plainUnicode initState). reflexivity.
Defined.

(** ** Exact matching *)

Lemma accepted_no_space (x : string) (c : ascii) :
  In x accepted -> firstByte x = Some c \/ lastByte x = Some c ->
  isSpaceByte c = false.
Proof.
  intros Hin Hc.
  accepted_case Hin; destruct Hc as [Hc|Hc]; vm_compute in Hc;
    first [discriminate Hc | injection Hc as <-; reflexivity].
Qed.

Lemma accepted_prefix_is_whole (x k : string) :
  In x accepted -> In k accepted -> x <> "" -> String.prefix x k = true -> x = k.
Proof.
  intros Hx Hk Hne Hpre.
  accepted_case Hx; accepted_case Hk;
    first [reflexivity | contradiction | vm_compute in Hpre; discriminate Hpre].
Qed.

Lemma accepted_not_extended (k t : string) :
  In k accepted -> k <> "" -> t <> "" -> ~ In (k +:+ t) accepted.
Proof.
  intros Hk Hne Ht Hin.
  accepted_case Hk; try contradiction;
    repeat rewrite append_String_l in Hin; rewrite append_empty_l in Hin;
    apply accepted_cases in Hin;
    destruct Hin as [E|[E|[E|[E|E]]]]; try discriminate E;
    injection E as ->; contradiction.
Qed.

Lemma accepted_not_digits (x : string) :
  In x accepted -> x <> "" -> allBytes isDigitByte x = false.
Proof. intros Hin Hne. accepted_case Hin; first [contradiction | reflexivity]. Qed.

(** C7: a level is returned only when the lower-cased string is exactly one
    of the accepted values.  So nothing is trimmed (a lower-cased string
    that starts or ends with white space is an error), nothing is matched
    by prefix (a proper non-empty prefix of a keyword is an error, and so is
    a keyword followed by anything), and no number is a level (a non-empty
    string of digits is an error); " basic" and "1" are errors. *)
Theorem C7_exact_matching (U : Unicode) (st : State) (s : string) :
  levelString st = Some s ->
  (succeeded (GetLevel U st) -> In (strings.ToLower U s) accepted) /\
  (forall c,
     firstByte (strings.ToLower U s) = Some c \/ lastByte (strings.ToLower U s) = Some c ->
     isSpaceByte c = true -> failed (GetLevel U st)) /\
  (forall k, In k accepted ->
     strings.ToLower U s <> "" -> strings.ToLower U s <> k ->
     String.prefix (strings.ToLower U s) k = true -> failed (GetLevel U st)) /\
  (forall k t, In k accepted -> k <> "" -> t <> "" ->
     strings.ToLower U s = k +:+ t -> failed (GetLevel U st)) /\
  (strings.ToLower U s <> "" -> allBytes isDigitByte (strings.ToLower U s) = true ->
     failed (GetLevel U st)) /\
  failed (GetLevel U (withLevel " basic" initState)) /\
  failed (GetLevel U (withLevel "1" initState)).
Proof.
  intros H.
  assert (Hlow : loweredLevel U st = strings.ToLower U s)
    by (unfold loweredLevel; rewrite H; reflexivity).
  assert (Hfail : ~ In (strings.ToLower U s) accepted -> failed (GetLevel U st))
    by (intros Hout; apply failed_iff; rewrite Hlow; exact Hout).
  split; [|split; [|split; [|split; [|split; [|split]]]]].
  - intros Hok. apply succeeded_iff in Hok. rewrite Hlow in Hok. exact Hok.
  - intros c Hc Hsp. apply Hfail. intros Hin.
    rewrite (accepted_no_space _ c Hin Hc) in Hsp. discriminate.
  - intros k Hk Hne Hdiff Hpre. apply Hfail. intros Hin.
    apply Hdiff. exact (accepted_prefix_is_whole _ k Hin Hk Hne Hpre).
  - intros k t Hk Hne Ht E. apply Hfail. intros Hin. rewrite E in Hin.
    exact (accepted_not_extended k t Hk Hne Ht Hin).
  - intros Hne Hdig. apply Hfail. intros Hin.
    rewrite (accepted_not_digits _ Hin Hne) in Hdig. discriminate.
  - apply failed_iff. vm_compute. intuition discriminate.
  - apply failed_iff. vm_compute. intuition discriminate.
Qed.

(** "Basic " with a trailing space is rejected: nothing is trimmed. *)
Lemma C7_exact_matching_witness :
  levelString (withLevel "Basic " initState) = Some "Basic " /\
  failed (GetLevel plainUnicode (withLevel "Basic " initState)).
Proof.
  split; [reflexivity|].
  destruct (C7_exact_matching plainUnicode (withLevel "Basic " initState) "Basic " eq_refl)
    as (_ & Hspace & _).
  apply (Hspace " "%char); [right|]; reflexivity.
Defined.

(** ** Flag registration *)

Lemma bind_Ok {A B} (c : M A) (k : A -> M B) (st st' : State) (b : B) :
  bind c k st = Ok b st' ->
  exists a st1, c st = Ok a st1 /\ k a st1 = Ok b st'.
Proof.
  unfold bind. destruct (c st) as [a st1|msg]; [|discriminate].
  intros H. exists a, st1. split; [reflexivity | exact H].
Qed.

Lemma Var_Ok (f f' : flag.FlagSet) (v : flag.Value) (d n u : string) (st st' : State) :
  flag.Var f v d n u st = Ok f' st' ->
  flag.formal f !! n = None /\ st' = st.
Proof.
  unfold flag.Var. destruct (flag.formal f !! n); [discriminate|].
  intros [= _ <-]. split; reflexivity.
Qed.

Lemma String_Ok (f f' : flag.FlagSet) (n v u : string) (p : loc) (st st' : State) :
  flag.String f n v u st = Ok (p, f') st' ->
  flag.formal f !! n = None /\ p = nextLoc st /\ st' = allocString v st.
Proof.
  unfold flag.String. intros H.
  apply bind_Ok in H as (p0 & st0 & Hnew & H). injection Hnew as <- <-.
  apply bind_Ok in H as (f0 & st1 & Hvar & H). apply Var_Ok in Hvar as [Hfree ->].
  injection H as <- _ <-. auto.
Qed.

Lemma Bool_Ok (f f' : flag.FlagSet) (n u : string) (v : bool) (p : loc) (st st' : State) :
  flag.Bool f n v u st = Ok (p, f') st' ->
  flag.formal f !! n = None /\ p = nextLoc st /\ st' = allocBool v st.
Proof.
  unfold flag.Bool. intros H.
  apply bind_Ok in H as (p0 & st0 & Hnew & H). injection Hnew as <- <-.
  apply bind_Ok in H as (f0 & st1 & Hvar & H). apply Var_Ok in Hvar as [Hfree ->].
  injection H as <- _ <-. auto.
Qed.

(** The state [Flags] leaves: six variables allocated in the order of the
    registrations, each package pointer on its own. *)
Lemma Flags_Ok (isDevBuild : bool) (flags : option flag.FlagSet)
    (fs' : flag.FlagSet) (st st' : State) :
  Flags isDevBuild flags st = Ok fs' st' ->
  let n := nextLoc st in
  vars st' = {| metricsLevelPtr := Some n; metricsAddrPtr := Some (1 + n);
                metricsPrefixPtr := Some (2 + n); useLegacyMetricsPtr := Some (3 + n);
                useNewMetricsPtr := Some (4 + n); addInstanceIDPtr := Some (5 + n) |} /\
  strCell st' n = "BASIC" /\
  strCell st' (1 + n) = GetMetricsAddrDefault isDevBuild /\
  strCell st' (2 + n) = "otelcol" /\
  boolCell st' (3 + n) = false /\
  boolCell st' (4 + n) = true /\
  boolCell st' (5 + n) = true.
Proof.
  unfold Flags. destruct flags as [f|]; [|discriminate]. unfold FlagsOn. intros H.
  apply bind_Ok in H as ([p1 f1] & s1 & E & H). apply String_Ok in E as (_ & -> & ->).
  apply bind_Ok in H as ([] & s1 & E & H). injection E as <-.
  apply bind_Ok in H as ([p2 f2] & s2 & E & H). apply String_Ok in E as (_ & -> & ->).
  apply bind_Ok in H as ([] & s2 & E & H). injection E as <-.
  apply bind_Ok in H as ([p3 f3] & s3 & E & H). apply String_Ok in E as (_ & -> & ->).
  apply bind_Ok in H as ([] & s3 & E & H). injection E as <-.
  apply bind_Ok in H as ([p4 f4] & s4 & E & H). apply Bool_Ok in E as (_ & -> & ->).
  apply bind_Ok in H as ([] & s4 & E & H). injection E as <-.
  apply bind_Ok in H as ([p5 f5] & s5 & E & H). apply Bool_Ok in E as (_ & -> & ->).
  apply bind_Ok in H as ([] & s5 & E & H). injection E as <-.
  apply bind_Ok in H as ([p6 f6] & s6 & E & H). apply Bool_Ok in E as (_ & -> & ->).
  apply bind_Ok in H as ([] & s6 & E & H). injection E as <-.
  injection H as _ <-.
  cbn -[Nat.eqb GetMetricsAddrDefault].
  repeat split;
    repeat match goal with
      | |- context [Nat.eqb ?a ?b] => destruct (Nat.eqb_spec a b); try lia
      end; reflexivity.
Qed.

Lemma bind_run {A B} (c : M A) (k : A -> M B) (st st1 : State) (a : A) :
  c st = Ok a st1 -> bind c k st = k a st1.
Proof. unfold bind. intros ->. reflexivity. Qed.

Lemma String_run (f : flag.FlagSet) (n v u : string) (st : State) :
  flag.formal f !! n = None ->
  exists f',
    flag.String f n v u st = Ok (nextLoc st, f') (allocString v st) /\
    forall m, m <> n -> flag.formal f' !! m = flag.formal f !! m.
Proof.
  intros Hfree. eexists. split.
  - unfold flag.String, flag.Var, bind, newString, ret. rewrite Hfree. reflexivity.
  - intros m Hm. cbn [flag.formal]. apply lookup_insert_ne. congruence.
Qed.

Lemma Bool_run (f : flag.FlagSet) (n u : string) (v : bool) (st : State) :
  flag.formal f !! n = None ->
  exists f',
    flag.Bool f n v u st = Ok (nextLoc st, f') (allocBool v st) /\
    forall m, m <> n -> flag.formal f' !! m = flag.formal f !! m.
Proof.
  intros Hfree. eexists. split.
  - unfold flag.Bool, flag.Var, bind, newBool, ret. rewrite Hfree. reflexivity.
  - intros m Hm. cbn [flag.formal]. apply lookup_insert_ne. congruence.
Qed.

Ltac names_differ := let E := fresh in intros E; vm_compute in E; discriminate E.

Ltac carry Hsame H :=
  match type of H with
  | _ !! ?m = None => rewrite <- (Hsame m ltac:(names_differ)) in H
  end.

Ltac register_step run Hfree :=
  let f' := fresh "f" in
  let E := fresh "E" in
  let Hsame := fresh "Hsame" in
  match goal with
  | |- exists _ _, bind (?reg ?f ?n ?v ?u) _ ?st = _ =>
      destruct (run f n v u st) as (f' & E & Hsame);
      [ exact Hfree
      | rewrite (bind_run _ _ _ _ _ E); cbv beta iota;
        erewrite bind_run by reflexivity ]
  | |- exists _ _, bind (?reg ?f ?n ?v ?u) _ ?st = _ =>
      destruct (run f n u v st) as (f' & E & Hsame);
      [ exact Hfree
      | rewrite (bind_run _ _ _ _ _ E); cbv beta iota;
        erewrite bind_run by reflexivity ]
  end.

(** On a flag set that defines none of the six names [Flags] does not panic. *)
Lemma Flags_succeeds (isDevBuild : bool) (f : flag.FlagSet) (st : State) :
  Forall (fun n : string => flag.formal f !! n = None)
    [metricsLevelCfg; metricsAddrCfg; metricsPrefixCfg;
     "legacy-metrics"; "new-metrics"; "add-instance-id"] ->
  exists fs' st', Flags isDevBuild (Some f) st = Ok fs' st'.
Proof.
  intros Hfree.
  apply Forall_cons in Hfree as [H1 Hfree]. apply Forall_cons in Hfree as [H2 Hfree].
  apply Forall_cons in Hfree as [H3 Hfree]. apply Forall_cons in Hfree as [H4 Hfree].
  apply Forall_cons in Hfree as [H5 Hfree]. apply Forall_cons in Hfree as [H6 _].
  unfold Flags, FlagsOn.
  register_step String_run H1.
  carry Hsame H2; carry Hsame H3; carry Hsame H4; carry Hsame H5; carry Hsame H6.
  clear Hsame.
  register_step String_run H2.
  carry Hsame H3; carry Hsame H4; carry Hsame H5; carry Hsame H6. clear Hsame.
  register_step String_run H3.
  carry Hsame H4; carry Hsame H5; carry Hsame H6. clear Hsame.
  register_step Bool_run H4.
  carry Hsame H5; carry Hsame H6. clear Hsame.
  register_step Bool_run H5.
  carry Hsame H6. clear Hsame.
  register_step Bool_run H6.
  eexists _, _. reflexivity.
Qed.

(** C10: once [Flags] has registered the flags, and with nothing parsed
    yet, [UseLegacyMetrics] is false, [UseNewMetrics] is true,
    [GetAddInstanceID] is true, [GetMetricsPrefix] is "otelcol", which is
    not empty, and the level string is "BASIC", which [GetLevel] resolves
    to Basic with no error. *)
Theorem C10_registered_defaults (isDevBuild : bool) (U : Unicode)
    (flags : option flag.FlagSet) (fs' : flag.FlagSet) (st st' : State) :
  Flags isDevBuild flags st = Ok fs' st' ->
  UseLegacyMetrics st' = Ok false st' /\
  UseNewMetrics st' = Ok true st' /\
  GetAddInstanceID st' = Ok true st' /\
  GetMetricsPrefix st' = Ok "otelcol" st' /\
  "otelcol" <> "" /\
  levelString st' = Some "BASIC" /\
  GetLevel U st' = Ok (Basic, None) st'.
Proof.
  intros H. apply Flags_Ok in H. cbv zeta in H.
  destruct H as (Hv & HL & _ & HP & Hlegacy & Hnew & Hid).
  assert (Hlevel : levelString st' = Some "BASIC")
    by (unfold levelString; rewrite Hv; cbn; rewrite HL; reflexivity).
  unfold UseLegacyMetrics, UseNewMetrics, GetAddInstanceID, GetMetricsPrefix,
    bind, readVar, derefBool, derefString.
  rewrite Hv. cbn [useLegacyMetricsPtr useNewMetricsPtr addInstanceIDPtr metricsPrefixPtr].
  rewrite Hlegacy, Hnew, Hid, HP.
  repeat split; try reflexivity; try discriminate; try exact Hlevel.
  rewrite (GetLevel_of_string U st' "BASIC" Hlevel). reflexivity.
Qed.

(** A fresh flag set in a fresh process. *)
Lemma C10_registered_defaults_witness :
  exists fs' st',
    Flags false (Some (flag.NewFlagSet "otelcol")) initState = Ok fs' st' /\
    UseLegacyMetrics st' = Ok false st' /\
    UseNewMetrics st' = Ok true st' /\
    GetLevel plainUnicode st' = Ok (Basic, None) st'.
Proof.
  destruct (Flags_succeeds false (flag.NewFlagSet "otelcol") initState) as (fs' & st' & E).
  - repeat constructor.
  - exists fs', st'. split; [exact E|].
    destruct (C10_registered_defaults false plainUnicode _ fs' initState st' E)
      as (H1 & H2 & _ & _ & _ & _ & H7).
    auto.
Defined.

(** ** What [Flags] does to the flag set and to memory *)

Lemma Var_inv (f f' : flag.FlagSet) (v : flag.Value) (d n u : string) (st st' : State) :
  flag.Var f v d n u st = Ok f' st' ->
  flag.formal f !! n = None /\ st' = st /\
  f' = {| flag.name := flag.name f;
          flag.formal :=
            <[n := {| flag.Name := n; flag.Usage := u; flag.FlagValue := v;
                      flag.DefValue := d |}]> (flag.formal f) |}.
Proof.
  unfold flag.Var. destruct (flag.formal f !! n); [discriminate|].
  intros [= <- <-]. repeat split.
Qed.

Lemma String_inv (f f' : flag.FlagSet) (n v u : string) (p : loc) (st st' : State) :
  flag.String f n v u st = Ok (p, f') st' ->
  flag.formal f !! n = None /\ p = nextLoc st /\ st' = allocString v st /\
  f' = {| flag.name := flag.name f;
          flag.formal :=
            <[n := {| flag.Name := n; flag.Usage := u;
                      flag.FlagValue := flag.stringValue (nextLoc st);
                      flag.DefValue := v |}]> (flag.formal f) |}.
Proof.
  unfold flag.String. intros H.
  apply bind_Ok in H as (p0 & st0 & Hnew & H). injection Hnew as <- <-.
  apply bind_Ok in H as (f0 & st1 & Hvar & H).
  apply Var_inv in Hvar as (Hfree & -> & ->).
  injection H as <- <- <-. auto.
Qed.

Lemma Bool_inv (f f' : flag.FlagSet) (n u : string) (v : bool) (p : loc) (st st' : State) :
  flag.Bool f n v u st = Ok (p, f') st' ->
  flag.formal f !! n = None /\ p = nextLoc st /\ st' = allocBool v st /\
  f' = {| flag.name := flag.name f;
          flag.formal :=
            <[n := {| flag.Name := n; flag.Usage := u;
                      flag.FlagValue := flag.boolValue (nextLoc st);
                      flag.DefValue := flag.FormatBool v |}]> (flag.formal f) |}.
Proof.
  unfold flag.Bool. intros H.
  apply bind_Ok in H as (p0 & st0 & Hnew & H). injection Hnew as <- <-.
  apply bind_Ok in H as (f0 & st1 & Hvar & H).
  apply Var_inv in Hvar as (Hfree & -> & ->).
  injection H as <- <- <-. auto.
Qed.

Ltac uncover H :=
  cbn [flag.formal] in H; repeat rewrite lookup_insert_ne in H by names_differ.

(** What a returning [Flags] was given and what it left: the flag set was
    not nil and defined none of the six names; the new flag set has the
    six flags entered on top of the old ones, each with the address of its
    own new variable; memory grew by six variables. *)
Lemma Flags_inv (isDevBuild : bool) (flags : option flag.FlagSet)
    (fs' : flag.FlagSet) (st st' : State) :
  Flags isDevBuild flags st = Ok fs' st' ->
  exists (f : flag.FlagSet) (u1 u2 u3 u4 u5 u6 : string),
    flags = Some f /\
    Forall (fun n : string => flag.formal f !! n = None) flagNames /\
    flag.name fs' = flag.name f /\
    flag.formal fs' =
      <["add-instance-id" :=
          {| flag.Name := "add-instance-id"; flag.Usage := u6;
             flag.FlagValue := flag.boolValue (5 + nextLoc st);
             flag.DefValue := "true" |}]>
      (<["new-metrics" :=
          {| flag.Name := "new-metrics"; flag.Usage := u5;
             flag.FlagValue := flag.boolValue (4 + nextLoc st);
             flag.DefValue := "true" |}]>
      (<["legacy-metrics" :=
          {| flag.Name := "legacy-metrics"; flag.Usage := u4;
             flag.FlagValue := flag.boolValue (3 + nextLoc st);
             flag.DefValue := "false" |}]>
      (<[metricsPrefixCfg :=
          {| flag.Name := metricsPrefixCfg; flag.Usage := u3;
             flag.FlagValue := flag.stringValue (2 + nextLoc st);
             flag.DefValue := "otelcol" |}]>
      (<[metricsAddrCfg :=
          {| flag.Name := metricsAddrCfg; flag.Usage := u2;
             flag.FlagValue := flag.stringValue (1 + nextLoc st);
             flag.DefValue := GetMetricsAddrDefault isDevBuild |}]>
      (<[metricsLevelCfg :=
          {| flag.Name := metricsLevelCfg; flag.Usage := u1;
             flag.FlagValue := flag.stringValue (nextLoc st);
             flag.DefValue := "BASIC" |}]> (flag.formal f)))))) /\
    nextLoc st' = 6 + nextLoc st /\
    (forall l, l < nextLoc st ->
       strCell st' l = strCell st l /\ boolCell st' l = boolCell st l).
Proof.
  unfold Flags. destruct flags as [f|]; [|discriminate]. unfold FlagsOn. intros H.
  apply bind_Ok in H as ([p1 f1] & s1 & E & H).
  apply String_inv in E as (N1 & -> & -> & ->).
  apply bind_Ok in H as ([] & s1 & E & H). injection E as <-.
  apply bind_Ok in H as ([p2 f2] & s2 & E & H).
  apply String_inv in E as (N2 & -> & -> & ->). uncover N2.
  apply bind_Ok in H as ([] & s2 & E & H). injection E as <-.
  apply bind_Ok in H as ([p3 f3] & s3 & E & H).
  apply String_inv in E as (N3 & -> & -> & ->). uncover N3.
  apply bind_Ok in H as ([] & s3 & E & H). injection E as <-.
  apply bind_Ok in H as ([p4 f4] & s4 & E & H).
  apply Bool_inv in E as (N4 & -> & -> & ->). uncover N4.
  apply bind_Ok in H as ([] & s4 & E & H). injection E as <-.
  apply bind_Ok in H as ([p5 f5] & s5 & E & H).
  apply Bool_inv in E as (N5 & -> & -> & ->). uncover N5.
  apply bind_Ok in H as ([] & s5 & E & H). injection E as <-.
  apply bind_Ok in H as ([p6 f6] & s6 & E & H).
  apply Bool_inv in E as (N6 & -> & -> & ->). uncover N6.
  apply bind_Ok in H as ([] & s6 & E & H). injection E as <-.
  injection H as <- <-.
  exists f. eexists _, _, _, _, _, _.
  split; [reflexivity|]. split; [repeat constructor; assumption|].
  split; [reflexivity|]. split; [reflexivity|]. split; [reflexivity|].
  intros l Hl. cbn -[Nat.eqb].
  repeat match goal with
    | |- context [Nat.eqb ?a ?b] => destruct (Nat.eqb_spec a b); try lia
    end.
  split; reflexivity.
Qed.

Lemma String_redefined (f : flag.FlagSet) (fl : flag.Flag) (n v u : string) (st : State) :
  flag.formal f !! n = Some fl ->
  flag.String f n v u st
    = Panic (if String.eqb (flag.name f) "" then "flag redefined: " +:+ n
             else flag.name f +:+ " flag redefined: " +:+ n).
Proof.
  intros H. unfold flag.String, flag.Var, bind, newString, panic. rewrite H.
  reflexivity.
Qed.

Lemma bind_Panic {A B} (c : M A) (k : A -> M B) (st : State) (msg : string) :
  c st = Panic msg -> bind c k st = Panic msg.
Proof. unfold bind. intros ->. reflexivity. Qed.


(** X2: a second [Flags] on the flag set a first one has filled panics, in
    any state and for any build: the first name, "metrics-level", is
    already defined, and the message is the flag package's "flag
    redefined" one, with the flag set's name in front when it has one. *)
Theorem X2_Flags_twice_panics (isDevBuild again : bool)
    (flags : option flag.FlagSet) (fs' : flag.FlagSet) (st st' st2 : State) :
  Flags isDevBuild flags st = Ok fs' st' ->
  Flags again (Some fs') st2
    = Panic (if String.eqb (flag.name fs') "" then "flag redefined: metrics-level"
             else flag.name fs' +:+ " flag redefined: metrics-level").
Proof.
  intros H.
  apply Flags_inv in H as (f & u1 & u2 & u3 & u4 & u5 & u6 & _ & _ & _ & Hformal & _).
  assert (Hdef : is_Some (flag.formal fs' !! metricsLevelCfg)).
  { rewrite Hformal. repeat rewrite lookup_insert_ne by names_differ.
    rewrite lookup_insert_eq. eauto. }
  destruct Hdef as [fl Hfl].
  unfold Flags, FlagsOn. apply bind_Panic.
  exact (String_redefined fs' fl _ _ _ st2 Hfl).
Qed.

(** A fresh flag set named "otelcol", filled once, then given again. *)
Lemma X2_Flags_twice_panics_witness :
  exists fs' st',
    Flags false (Some (flag.NewFlagSet "otelcol")) initState = Ok fs' st' /\
    Flags false (Some fs') st' = Panic "otelcol flag redefined: metrics-level".
Proof.
  destruct (Flags_succeeds false (flag.NewFlagSet "otelcol") initState) as (fs' & st' & E).
  - repeat constructor.
  - exists fs', st'. split; [exact E|].
    rewrite (X2_Flags_twice_panics false false _ fs' initState st' st' E).
    apply Flags_inv in E as (f & _ & _ & _ & _ & _ & _ & [= <-] & _ & -> & _).
    reflexivity.
Defined.

Ltac lookup_registered :=
  repeat rewrite lookup_insert_ne by names_differ; apply lookup_insert_eq.

(** X3: after [Flags] the flag set defines the six flags under their names,
    with the defaults printed as "BASIC", the default metrics address,
    "otelcol", "false", "true" and "true"; and the variable behind each
    flag is the one the matching package pointer holds, so that what a
    command line sets in a flag is what the accessor reads. *)
Theorem X3_Flags_registers_pointers (isDevBuild : bool)
    (flags : option flag.FlagSet) (fs' : flag.FlagSet) (st st' : State) :
  Flags isDevBuild flags st = Ok fs' st' ->
  exists p1 p2 p3 p4 p5 p6 : loc,
    vars st' = {| metricsLevelPtr := Some p1; metricsAddrPtr := Some p2;
                  metricsPrefixPtr := Some p3; useLegacyMetricsPtr := Some p4;
                  useNewMetricsPtr := Some p5; addInstanceIDPtr := Some p6 |} /\
    registered fs' "metrics-level" (flag.stringValue p1) "BASIC" /\
    registered fs' "metrics-addr" (flag.stringValue p2) (GetMetricsAddrDefault isDevBuild) /\
    registered fs' "metrics-prefix" (flag.stringValue p3) "otelcol" /\
    registered fs' "legacy-metrics" (flag.boolValue p4) "false" /\
    registered fs' "new-metrics" (flag.boolValue p5) "true" /\
    registered fs' "add-instance-id" (flag.boolValue p6) "true".
Proof.
  intros H. pose proof (Flags_Ok _ _ _ _ _ H) as (Hv & _). cbv zeta in Hv.
  apply Flags_inv in H as (f & u1 & u2 & u3 & u4 & u5 & u6 & _ & _ & _ & Hformal & _).
  eexists _, _, _, _, _, _. split; [exact Hv|].
  unfold registered. rewrite Hformal.
  repeat split; (eexists; split; [lookup_registered | repeat split]).
Qed.

(** A fresh flag set in a fresh process: "metrics-level" is defined, with
    the variable [metricsLevelPtr] holds. *)
Lemma X3_Flags_registers_pointers_witness :
  exists fs' st' p,
    Flags true (Some (flag.NewFlagSet "")) initState = Ok fs' st' /\
    metricsLevelPtr (vars st') = Some p /\
    registered fs' "metrics-level" (flag.stringValue p) "BASIC".
Proof.
  destruct (Flags_succeeds true (flag.NewFlagSet "") initState) as (fs' & st' & E).
  - repeat constructor.
  - destruct (X3_Flags_registers_pointers true _ fs' initState st' E)
      as (p1 & p2 & p3 & p4 & p5 & p6 & Hv & H1 & _).
    exists fs', st', p1. rewrite Hv. auto.
Defined.

(** X4: [Flags] leaves every flag the flag set already had as it was, keeps
    the flag set's name, and adds exactly six flags. *)
Theorem X4_Flags_keeps_other_flags (isDevBuild : bool)
    (f fs' : flag.FlagSet) (st st' : State) :
  Flags isDevBuild (Some f) st = Ok fs' st' ->
  (forall m, ~ In m flagNames -> flag.formal fs' !! m = flag.formal f !! m) /\
  flag.name fs' = flag.name f /\
  size (flag.formal fs') = 6 + size (flag.formal f).
Proof.
  intros H.
  apply Flags_inv in H
    as (f0 & u1 & u2 & u3 & u4 & u5 & u6 & [= <-] & Hfree & Hname & Hformal & _).
  split; [|split; [exact Hname|]].
  - intros m Hm. rewrite Hformal.
    repeat rewrite lookup_insert_ne
      by (intros E; apply Hm; rewrite <- E; unfold flagNames; simpl; tauto).
    reflexivity.
  - rewrite Hformal. unfold flagNames in Hfree.
    repeat match goal with
      | H : Forall _ (_ :: _) |- _ => apply Forall_cons in H as [? H]
      end.
    repeat (rewrite map_size_insert_None;
            [|repeat rewrite lookup_insert_ne by names_differ; assumption]).
    reflexivity.
Qed.

(** A flag set that already defines "config": it is still there, and the
    flag set has seven flags. *)
Lemma X4_Flags_keeps_other_flags_witness :
  let configFlag :=
    {| flag.Name := "config"; flag.Usage := "Path to the config file";
       flag.FlagValue := flag.stringValue 0; flag.DefValue := "" |} in
  let f := {| flag.name := "otelcol"; flag.formal := {["config" := configFlag]} |} in
  exists fs' st',
    Flags false (Some f) (allocString "" initState) = Ok fs' st' /\
    flag.formal fs' !! "config" = Some configFlag /\
    size (flag.formal fs') = 7.
Proof.
  intros configFlag f.
  destruct (Flags_succeeds false f (allocString "" initState)) as (fs' & st' & E).
  - repeat constructor.
  - exists fs', st'. split; [exact E|].
    destruct (X4_Flags_keeps_other_flags false f fs' _ st' E) as (Hkeep & _ & Hsize).
    split.
    + rewrite Hkeep; [reflexivity|]. vm_compute. intuition discriminate.
    + rewrite Hsize. reflexivity.
Defined.

(** X5: [Flags] allocates six new variables and touches no other: the
    variables that existed keep what they held, and the six package
    pointers end up on six different addresses, none of which was in use
    before. *)
Theorem X5_Flags_memory_frame (isDevBuild : bool)
    (flags : option flag.FlagSet) (fs' : flag.FlagSet) (st st' : State) :
  Flags isDevBuild flags st = Ok fs' st' ->
  nextLoc st' = 6 + nextLoc st /\
  (forall l, l < nextLoc st ->
     strCell st' l = strCell st l /\ boolCell st' l = boolCell st l) /\
  exists ps : list loc,
    [metricsLevelPtr (vars st'); metricsAddrPtr (vars st'); metricsPrefixPtr (vars st');
     useLegacyMetricsPtr (vars st'); useNewMetricsPtr (vars st');
     addInstanceIDPtr (vars st')] = List.map Some ps /\
    NoDup ps /\
    Forall (fun p => nextLoc st <= p < nextLoc st') ps.
Proof.
  intros H. pose proof (Flags_Ok _ _ _ _ _ H) as (Hv & _). cbv zeta in Hv.
  apply Flags_inv in H as (f & _ & _ & _ & _ & _ & _ & _ & _ & _ & _ & Hnext & Hold).
  split; [exact Hnext|]. split; [exact Hold|].
  exists [nextLoc st; 1 + nextLoc st; 2 + nextLoc st; 3 + nextLoc st;
          4 + nextLoc st; 5 + nextLoc st].
  rewrite Hv. cbn [metricsLevelPtr metricsAddrPtr metricsPrefixPtr
    useLegacyMetricsPtr useNewMetricsPtr addInstanceIDPtr].
  split; [reflexivity|]. rewrite Hnext. split.
  - repeat (apply NoDup_cons_2; [rewrite ?elem_of_cons, elem_of_nil; lia|]).
    apply NoDup_nil_2.
  - repeat constructor; lia.
Qed.

(** A process that already holds a level string: [Flags] leaves that
    variable alone. *)
Lemma X5_Flags_memory_frame_witness :
  exists fs' st',
    Flags false (Some (flag.NewFlagSet "")) (withLevel "detailed" initState) = Ok fs' st' /\
    strCell st' 0 = "detailed" /\ nextLoc st' = 7.
Proof.
  destruct (Flags_succeeds false (flag.NewFlagSet "") (withLevel "detailed" initState))
    as (fs' & st' & E).
  - repeat constructor.
  - exists fs', st'. split; [exact E|].
    destruct (X5_Flags_memory_frame false _ fs' _ st' E) as (Hnext & Hold & _).
    split; [|exact Hnext]. apply Hold. cbn. lia.
Defined.

(** ** The accessors *)

(** X6: after [Flags], [GetMetricsAddr] returns the default address of the
    build: "localhost:8888" on a development build, ":8888" otherwise. *)
Theorem X6_GetMetricsAddr_registered_default (isDevBuild : bool)
    (flags : option flag.FlagSet) (fs' : flag.FlagSet) (st st' : State) :
  Flags isDevBuild flags st = Ok fs' st' ->
  GetMetricsAddr st' = Ok (if isDevBuild then "localhost:8888" else ":8888") st'.
Proof.
  intros H. apply Flags_Ok in H. cbv zeta in H.
  destruct H as (Hv & _ & HA & _).
  unfold GetMetricsAddr, bind, readVar, derefString.
  rewrite Hv. cbn [metricsAddrPtr]. rewrite HA. reflexivity.
Qed.

(** A production build binds every interface. *)
Lemma X6_GetMetricsAddr_registered_default_witness :
  exists fs' st',
    Flags false (Some (flag.NewFlagSet "")) initState = Ok fs' st' /\
    GetMetricsAddr st' = Ok ":8888" st'.
Proof.
  destruct (Flags_succeeds false (flag.NewFlagSet "") initState) as (fs' & st' & E).
  - repeat constructor.
  - exists fs', st'. split; [exact E|].
    exact (X6_GetMetricsAddr_registered_default false _ fs' initState st' E).
Defined.

(** X7: after [Flags], setting the flag defined as "metrics-level" to [s],
    as parsing a command line does, makes [GetLevel] resolve [s]: the level
    and error are those of the switch on the lower-cased [s].  The other
    five accessors still return their defaults. *)
Theorem X7_level_flag_override (isDevBuild : bool) (U : Unicode)
    (flags : option flag.FlagSet) (fs' : flag.FlagSet) (st st' : State)
    (p : loc) (def s : string) :
  Flags isDevBuild flags st = Ok fs' st' ->
  registered fs' "metrics-level" (flag.stringValue p) def ->
  exists st2,
    stringValue_Set p s st' = Ok None st2 /\
    GetLevel U st2 = Ok (levelSwitch U (strings.ToLower U s)) st2 /\
    GetMetricsAddr st2 = Ok (GetMetricsAddrDefault isDevBuild) st2 /\
    GetMetricsPrefix st2 = Ok "otelcol" st2 /\
    UseLegacyMetrics st2 = Ok false st2 /\
    UseNewMetrics st2 = Ok true st2 /\
    GetAddInstanceID st2 = Ok true st2.
Proof.
  intros H (fl & Hfl & _ & Hval & _).
  pose proof (Flags_Ok _ _ _ _ _ H) as Hok. cbv zeta in Hok.
  destruct Hok as (Hv & _ & HA & HP & Hlegacy & Hnew & Hid).
  apply Flags_inv in H as (f & u1 & u2 & u3 & u4 & u5 & u6 & _ & _ & _ & Hformal & _).
  rewrite Hformal in Hfl.
  assert (Hp : p = nextLoc st).
  { change "metrics-level" with metricsLevelCfg in Hfl.
    repeat rewrite lookup_insert_ne in Hfl by names_differ.
    rewrite lookup_insert_eq in Hfl. injection Hfl as <-.
    cbn in Hval. injection Hval as <-. reflexivity. }
  subst p. exists (storeString (nextLoc st) s st'). split; [reflexivity|].
  split.
  { apply GetLevel_of_string. unfold levelString. cbn [vars storeString strCell].
    rewrite Hv. cbn [metricsLevelPtr]. rewrite Nat.eqb_refl. reflexivity. }
  unfold GetMetricsAddr, GetMetricsPrefix, UseLegacyMetrics, UseNewMetrics,
    GetAddInstanceID, bind, readVar, derefBool, derefString.
  cbn [vars storeString strCell boolCell]. rewrite Hv.
  cbn [metricsAddrPtr metricsPrefixPtr useLegacyMetricsPtr useNewMetricsPtr
       addInstanceIDPtr].
  rewrite HA, HP, Hlegacy, Hnew, Hid.
  repeat match goal with
    | |- context [Nat.eqb ?a ?b] => destruct (Nat.eqb_spec a b); try lia
    end.
  repeat split.
Qed.

(** "--metrics-level=Detailed" on a fresh flag set resolves to Detailed. *)
Lemma X7_level_flag_override_witness :
  exists fs' st' p st2,
    Flags false (Some (flag.NewFlagSet "")) initState = Ok fs' st' /\
    registered fs' "metrics-level" (flag.stringValue p) "BASIC" /\
    stringValue_Set p "Detailed" st' = Ok None st2 /\
    GetLevel plainUnicode st2 = Ok (Detailed, None) st2.
Proof.
  destruct (Flags_succeeds false (flag.NewFlagSet "") initState) as (fs' & st' & E).
  - repeat constructor.
  - destruct (Flags_inv false _ fs' initState st' E)
      as (f & u1 & u2 & u3 & u4 & u5 & u6 & _ & _ & _ & Hformal & _).
    assert (Hreg : registered fs' "metrics-level" (flag.stringValue 0) "BASIC").
    { unfold registered. rewrite Hformal. eexists. split; [lookup_registered|].
      repeat split. }
    destruct (X7_level_flag_override false plainUnicode _ fs' initState st' 0 "BASIC"
                "Detailed" E Hreg) as (st2 & Hset & Hlevel & _).
    exists fs', st', 0, st2. auto.
Defined.

(** X8: each of the five accessors that dereference their pointer
    unguarded panics with the nil dereference exactly when that pointer is
    nil, as all of them are before [Flags] ran; [GetLevel] alone guards. *)
Theorem X8_accessors_panic_iff_nil (st : State) :
  (GetMetricsAddr st = Panic nilDereference <-> metricsAddrPtr (vars st) = None) /\
  (GetMetricsPrefix st = Panic nilDereference <-> metricsPrefixPtr (vars st) = None) /\
  (UseLegacyMetrics st = Panic nilDereference <-> useLegacyMetricsPtr (vars st) = None) /\
  (UseNewMetrics st = Panic nilDereference <-> useNewMetricsPtr (vars st) = None) /\
  (GetAddInstanceID st = Panic nilDereference <-> addInstanceIDPtr (vars st) = None) /\
  (forall U, GetLevel U st <> Panic nilDereference).
Proof.
  unfold GetMetricsAddr, GetMetricsPrefix, UseLegacyMetrics, UseNewMetrics,
    GetAddInstanceID, bind, readVar, derefBool, derefString.
  repeat split;
    try (destruct (_ (vars st)); intros; first [reflexivity | discriminate]).
  intros U. rewrite GetLevel_run. discriminate.
Qed.

(** ** Case folding and the error message *)

Lemma allBytes_weaken (p q : ascii -> bool) (s : string) :
  (forall c, p c = true -> q c = true) ->
  allBytes p s = true -> allBytes q s = true.
Proof.
  intros Hpq. induction s as [|c s IH]; cbn [allBytes]; [reflexivity|].
  intros H. apply andb_true_iff in H as [Hc Hs].
  rewrite (Hpq c Hc), (IH Hs). reflexivity.
Qed.

Lemma allBytes_append (p : ascii -> bool) (a b : string) :
  allBytes p (a +:+ b) = allBytes p a && allBytes p b.
Proof.
  induction a as [|c a IH].
  - reflexivity.
  - rewrite append_String_l. cbn [allBytes]. rewrite IH. apply andb_assoc.
Qed.

Lemma isBelowDel_isASCII (c : ascii) : isBelowDel c = true -> isASCIIByte c = true.
Proof. each_byte c; vm_compute; congruence. Qed.

Lemma lowerByte_isBelowDel (c : ascii) : isBelowDel (lowerByte c) = isBelowDel c.
Proof. each_byte c; reflexivity. Qed.

Lemma asciiLower_isBelowDel (s : string) :
  allBytes isBelowDel (asciiLower s) = allBytes isBelowDel s.
Proof.
  unfold asciiLower.
  induction s as [|c s IH]; cbn [mapBytes allBytes]; [reflexivity|].
  rewrite lowerByte_isBelowDel, IH. reflexivity.
Qed.

Lemma escapeByte_printable (c : ascii) :
  allBytes strconv.isPrintASCII (strconv.escapeByte c) = true.
Proof. each_byte c; reflexivity. Qed.

Lemma Quote_below_del (U : Unicode) (s : string) :
  allBytes isBelowDel s = true ->
  strconv.Quote U s
    = String dquote (concatMap strconv.escapeByte s +:+ String dquote EmptyString).
Proof. unfold strconv.Quote. intros H. fold isBelowDel. rewrite H. reflexivity. Qed.

Lemma Quote_printable (U : Unicode) (s : string) :
  allBytes isBelowDel s = true ->
  allBytes strconv.isPrintASCII (strconv.Quote U s) = true.
Proof.
  intros H. rewrite (Quote_below_del U s H). cbn [allBytes].
  rewrite allBytes_append. apply andb_true_iff. split; [reflexivity|].
  apply andb_true_iff. split; [|reflexivity].
  clear H. induction s as [|c s IH]; cbn [concatMap allBytes]; [reflexivity|].
  rewrite allBytes_append, escapeByte_printable, IH. reflexivity.
Qed.

Lemma append_assoc (a b c : string) : (a +:+ b) +:+ c = a +:+ (b +:+ c).
Proof.
  induction a as [|x a IH]; [reflexivity|].
  rewrite !append_String_l, IH. reflexivity.
Qed.

Lemma append_inj_l (p a b : string) : p +:+ a = p +:+ b -> a = b.
Proof.
  induction p as [|c p IH]; [auto|].
  rewrite !append_String_l. intros [= H]. exact (IH H).
Qed.

Lemma unescapeFirst_escapeByte (c : ascii) (r : string) :
  isBelowDel c = true ->
  unescapeFirst (strconv.escapeByte c +:+ r) = Some (c, r).
Proof. each_byte c; intros H; first [reflexivity | vm_compute in H; discriminate H]. Qed.

Lemma quoted_body_inj (s1 s2 : string) :
  allBytes isBelowDel s1 = true -> allBytes isBelowDel s2 = true ->
  concatMap strconv.escapeByte s1 +:+ String dquote EmptyString
    = concatMap strconv.escapeByte s2 +:+ String dquote EmptyString ->
  s1 = s2.
Proof.
  revert s2. induction s1 as [|c1 s1 IH]; intros [|c2 s2] H1 H2 E;
    cbn [concatMap allBytes] in *.
  - reflexivity.
  - apply andb_true_iff in H2 as [Hc2 _]. rewrite append_assoc in E.
    apply (f_equal unescapeFirst) in E.
    rewrite (unescapeFirst_escapeByte c2 _ Hc2) in E. discriminate E.
  - apply andb_true_iff in H1 as [Hc1 _]. rewrite append_assoc in E.
    apply (f_equal unescapeFirst) in E.
    rewrite (unescapeFirst_escapeByte c1 _ Hc1) in E. discriminate E.
  - apply andb_true_iff in H1 as [Hc1 Hs1]. apply andb_true_iff in H2 as [Hc2 Hs2].
    rewrite !append_assoc in E. apply (f_equal unescapeFirst) in E.
    rewrite (unescapeFirst_escapeByte c1 _ Hc1), (unescapeFirst_escapeByte c2 _ Hc2) in E.
    injection E as <- E. f_equal. exact (IH s2 Hs1 Hs2 E).
Qed.

Lemma ToLower_below_del (U : Unicode) (s : string) :
  allBytes isBelowDel s = true ->
  strings.ToLower U s = asciiLower s /\
  allBytes isBelowDel (strings.ToLower U s) = true.
Proof.
  intros H.
  assert (E : strings.ToLower U s = asciiLower s)
    by (apply ToLower_ascii, (allBytes_weaken isBelowDel); [apply isBelowDel_isASCII | exact H]).
  split; [exact E|]. rewrite E, asciiLower_isBelowDel. exact H.
Qed.

(** X9: on level strings of ASCII bytes [GetLevel] is insensitive to case
    altogether, not only on the keywords: two strings that are equal once
    their upper-case letters are folded get the same level and the same
    error, message included. *)
Theorem X9_GetLevel_ascii_case_insensitive (U : Unicode) (st1 st2 : State)
    (s1 s2 : string) :
  levelString st1 = Some s1 -> levelString st2 = Some s2 ->
  allBytes isASCIIByte s1 = true -> allBytes isASCIIByte s2 = true ->
  asciiLower s1 = asciiLower s2 ->
  returned (GetLevel U st1) = returned (GetLevel U st2).
Proof.
  intros H1 H2 A1 A2 E.
  rewrite (GetLevel_of_string U st1 s1 H1), (GetLevel_of_string U st2 s2 H2).
  rewrite (ToLower_ascii U s1 A1), (ToLower_ascii U s2 A2), E. reflexivity.
Qed.

(** "VERBOSE" and "Verbose" are rejected with one and the same error. *)
Lemma X9_GetLevel_ascii_case_insensitive_witness :
  returned (GetLevel plainUnicode (withLevel "VERBOSE" initState))
    = returned (GetLevel plainUnicode (withLevel "Verbose" initState)) /\
  failed (GetLevel plainUnicode (withLevel "Verbose" initState)).
Proof.
  split.
  - apply (X9_GetLevel_ascii_case_insensitive plainUnicode _ _ "VERBOSE" "Verbose");
      reflexivity.
  - apply failed_iff. vm_compute. intuition discriminate.
Defined.

(** X10: when a level string of bytes below [0x7f] is rejected, the error
    message is made of printable ASCII characters only: control characters
    of the input reach the message as escapes, never as themselves. *)
Theorem X10_error_message_printable (U : Unicode) (st : State) (s : string) :
  levelString st = Some s ->
  allBytes isBelowDel s = true ->
  ~ In (strings.ToLower U s) accepted ->
  exists msg,
    GetLevel U st = Ok (zeroLevel, Some msg) st /\
    allBytes strconv.isPrintASCII msg = true.
Proof.
  intros H Hlow Hout. destruct (ToLower_below_del U s Hlow) as [_ Hbelow].
  eexists. split.
  - rewrite (GetLevel_of_string U st s H), (levelSwitch_rejected U _ Hout). reflexivity.
  - rewrite allBytes_append, (Quote_printable U _ Hbelow). reflexivity.
Qed.

(** A level string with a line feed and an escape character in it. *)
Lemma X10_error_message_printable_witness :
  let s := String "010"%char (String "027"%char "basic") in
  exists msg,
    GetLevel plainUnicode (withLevel s initState)
      = Ok (zeroLevel, Some msg) (withLevel s initState) /\
    allBytes strconv.isPrintASCII msg = true.
Proof.
  intros s.
  apply (X10_error_message_printable plainUnicode (withLevel s initState) s).
  - reflexivity.
  - reflexivity.
  - vm_compute. intuition discriminate.
Defined.

(** X11: the error message tells the rejected value exactly: two level
    strings of bytes below [0x7f] that are rejected with the same error
    are equal up to the case of their letters. *)
Theorem X11_error_message_identifies_value (U : Unicode) (st1 st2 : State)
    (s1 s2 : string) :
  levelString st1 = Some s1 -> levelString st2 = Some s2 ->
  allBytes isBelowDel s1 = true -> allBytes isBelowDel s2 = true ->
  failed (GetLevel U st1) ->
  returned (GetLevel U st1) = returned (GetLevel U st2) ->
  asciiLower s1 = asciiLower s2.
Proof.
  intros H1 H2 B1 B2 Hfail Hsame.
  destruct (ToLower_below_del U s1 B1) as [E1 L1].
  destruct (ToLower_below_del U s2 B2) as [E2 L2].
  apply failed_iff in Hfail. unfold loweredLevel in Hfail. rewrite H1 in Hfail.
  rewrite (GetLevel_of_string U st1 s1 H1), (GetLevel_of_string U st2 s2 H2) in Hsame.
  rewrite (levelSwitch_rejected U _ Hfail) in Hsame. cbn [returned] in Hsame.
  destruct (accepted_dec (strings.ToLower U s2)) as [Hin|Hout].
  - destruct (levelSwitch_accepted U _ Hin) as [l El]. rewrite El in Hsame.
    discriminate Hsame.
  - rewrite (levelSwitch_rejected U _ Hout) in Hsame. unfold Errorf_q in Hsame.
    injection Hsame as Hmsg. apply append_inj_l in Hmsg.
    rewrite (Quote_below_del U _ L1), (Quote_below_del U _ L2) in Hmsg.
    injection Hmsg as Hbody.
    rewrite <- E1, <- E2. exact (quoted_body_inj _ _ L1 L2 Hbody).
Qed.

(** A string compared with itself in another spelling. *)
Lemma X11_error_message_identifies_value_witness :
  asciiLower "Trace" = asciiLower "tRACE".
Proof.
  apply (X11_error_message_identifies_value plainUnicode
           (withLevel "Trace" initState) (withLevel "tRACE" initState)
           "Trace" "tRACE"); try reflexivity.
  apply failed_iff. vm_compute. intuition discriminate.
Defined.

(** X12: whatever the state, a level that [GetLevel] returns with no error
    is one of the four constants, and a level it returns with an error is
    the zero value, which is none of them: a caller that ignores the error
    holds a level outside the enumeration. *)
Theorem X12_GetLevel_level_range (U : Unicode) (st st' : State) (l : Level)
    (err : error) :
  GetLevel U st = Ok (l, err) st' ->
  (err = None -> In l [None_; Basic; Normal; Detailed]) /\
  (err <> None -> l = zeroLevel /\ ~ In l [None_; Basic; Normal; Detailed]).
Proof.
  rewrite GetLevel_run. intros [= Hsw <-].
  generalize dependent (loweredLevel U st). intros x Hsw.
  destruct (accepted_dec x) as [Hin|Hout].
  - accepted_case Hin; injection Hsw as <- <-;
      (split; [intros _; simpl; tauto | intros Hne; contradiction]).
  - rewrite (levelSwitch_rejected U _ Hout) in Hsw. injection Hsw as <- <-.
    split; [discriminate|]. intros _. split; [reflexivity|].
    vm_compute. intuition discriminate.
Qed.

(** The level string "normal" and the level string "2". *)
Lemma X12_GetLevel_level_range_witness :
  In Normal [None_; Basic; Normal; Detailed] /\
  ~ In zeroLevel [None_; Basic; Normal; Detailed].
Proof.
  split.
  - apply (X12_GetLevel_level_range plainUnicode (withLevel "normal" initState)
             (withLevel "normal" initState) Normal None); reflexivity.
  - apply (X12_GetLevel_level_range plainUnicode (withLevel "2" initState)
             (withLevel "2" initState) zeroLevel
             (Some ("unknown metrics level " +:+ strconv.Quote plainUnicode "2")));
      [reflexivity | discriminate].
Defined.
